(** * Airdrop claim client: response classification, fetch, transaction building

    A shallow embedding of [src/utils/airdrop.ts].  The module has three
    functions:
    - [handleApiResponse]: maps an HTTP status and a parsed JSON body to an
      [AirdropClaimResponse];
    - [fetchAirdropClaim]: builds the request URL, performs one GET through
      the host's [fetch], and classifies the answer, with a blanket [catch];
    - [getTxFromUserClaim]: turns a claim into a transfer descriptor that is
      valid for five minutes.

    Modelling choices.
    - HTTP statuses, [Date.now()] and the [mode] of a message are JavaScript
      numbers holding integers; they are [Z] here.
    - Parsed response bodies have TypeScript type [any]: they are values of
      [JSON], and the result types carry them as they are (types are erased
      at run time, so [info: data] stores the body itself).
    - [statusCodeMapping] is a JavaScript object: a finite map keyed by
      strings, indexed with the decimal rendering of the status.
    - Promises are modelled by their final state ([Promise]); the host
      environment ([fetch], the clock) is an explicit [World] and
      a transport function. *)

From Stdlib Require Import ZArith List.
From stdpp Require Import base strings pretty gmap.

Local Open Scope string_scope.
Local Open Scope Z_scope.

(** ** JSON values *)

(** What [response.json()] can resolve to.  Numbers are restricted to
    integers: the only numeric field of the API is the int32 [mode]. *)
#[warnings="-register-all"] Inductive JSON : Type :=
| JNull
| JBool (b : bool)
| JNumber (n : Z)
| JString (s : string)
| JArray (items : list JSON)
| JObject (members : list (string * JSON)).

(** Property read [v[key]] on a parsed value; [None] stands for
    [undefined].  [JSON.parse] keeps the last of duplicated keys. *)
Fixpoint assoc_last (key : string) (members : list (string * JSON)) : option JSON :=
  match members with
  | [] => None
  | (k, v) :: rest =>
      match assoc_last key rest with
      | Some v' => Some v'
      | None => if String.eqb k key then Some v else None
      end
  end.

Definition get_field (key : string) (v : JSON) : option JSON :=
  match v with
  | JObject members => assoc_last key members
  | _ => None
  end.

(** ** Data model (the exported interfaces) *)

Inductive VestingParameters : Type := mkVestingParameters.

Record InternalMessage : Type := mkInternalMessage {
  mode : Z;
  address : string;
  state_init : option string;
  payload : string;
  amount : string
}.

Record UserClaimInfo : Type := mkUserClaimInfo {
  jetton : string;
  available_jetton_amount : string;
  total_jetton_amount : string;
  claimed_jetton_amount : string;
  vesting_parameters : option VestingParameters
}.

(** [UserClaim extends UserClaimInfo]. *)
Record UserClaim : Type := mkUserClaim {
  claim_info :> UserClaimInfo;
  claim_message : InternalMessage
}.

(** The object literal returned by [getTxFromUserClaim]. *)
Module Tx.
Record message : Type := mkMessage {
  address : string;
  amount : string;
  payload : string;
  stateInit : option string
}.

Record t : Type := mk {
  validUntil : Z;
  messages : list message
}.
End Tx.

(** ** Results *)

Record ErrorInfo : Type := mkError {
  code : string;
  message : string
}.

(** [AirdropClaimResponse = AirdropClaimSuccess | AirdropClaimError].  The
    [info] of an error is an optional property: [None] means the key is
    absent from the object. *)
Inductive AirdropClaimResponse : Type :=
| AirdropClaimSuccess (info : JSON) (claim : JSON)
| AirdropClaimError (info : option JSON) (error : ErrorInfo).

Definition success (r : AirdropClaimResponse) : bool :=
  match r with
  | AirdropClaimSuccess _ _ => true
  | AirdropClaimError _ _ => false
  end.

Definition info_of (r : AirdropClaimResponse) : option JSON :=
  match r with
  | AirdropClaimSuccess i _ => Some i
  | AirdropClaimError i _ => i
  end.

Definition claim_of (r : AirdropClaimResponse) : option JSON :=
  match r with
  | AirdropClaimSuccess _ c => Some c
  | AirdropClaimError _ _ => None
  end.

Definition error_of (r : AirdropClaimResponse) : option ErrorInfo :=
  match r with
  | AirdropClaimSuccess _ _ => None
  | AirdropClaimError _ e => Some e
  end.

(** ** JavaScript primitives used by the module *)

(** [String(n)] for an integer [n]: the key under which [obj[n]] looks.
    (Agrees with JavaScript below 10^21, far above any HTTP status.) *)
Definition Number_toString (n : Z) : string := pretty n.

(** [x || d] where [x] is a string or [undefined]: the empty string and
    [undefined] are falsy. *)
Definition js_or (x : option string) (d : string) : string :=
  match x with
  | Some s => if String.eqb s "" then d else s
  | None => d
  end.

(** ** The classifier *)

Definition statusCodeMapping : gmap string string :=
  list_to_map
    [ ("404", "not_found");
      ("425", "too_early");
      ("409", "already_claimed");
      ("423", "locked");
      ("429", "blockchain_overload") ].

(** The [switch] over [response.status], cases in source order. *)
Definition errorMessage_of (status : Z) : string :=
  if status =? 425 then "The nearest vesting date has not arrived yet"
  else if status =? 409 then "All Jettons have already been claimed"
  else if status =? 423 then "Airdrop is locked by admin"
  else if status =? 429 then "Blockchain is currently overloaded"
  else if status =? 404 then "Airdrop not found or not processed yet"
  else "Unknown error occurred".

(** [handleApiResponse] reads only [response.status] of its first
    argument, so the status stands for the response. *)
Definition handleApiResponse (status : Z) (data : JSON) : AirdropClaimResponse :=
  if status =? 200 then
    AirdropClaimSuccess data data
  else
    let errorCode := js_or (statusCodeMapping !! Number_toString status) "unknown_error" in
    let errorMessage := errorMessage_of status in
    AirdropClaimError (Some data) (mkError errorCode errorMessage).

(** ** The host environment *)

(** Reasons a promise can be rejected with.  [fetch] rejects with a
    [TypeError] on a network failure, [response.json()] with a
    [SyntaxError] on a body that is not JSON, and an aborted or timed-out
    request with a [DOMException]. *)
Inductive Reason : Type :=
| TypeError (msg : string)
| SyntaxError (msg : string)
| DOMException (name : string) (msg : string).

(** A promise, by the state it ends in.  [Pending] is a promise that never
    settles (the module sets no timeout of its own). *)
Inductive Promise (A : Type) : Type :=
| Resolved (a : A)
| Rejected (reason : Reason)
| Pending.

Arguments Resolved {A} a.
Arguments Rejected {A} reason.
Arguments Pending {A}.

(** [p.then(f)]: a callback that returns a plain value [v] is written as
    returning [Resolved v], as the promise resolution procedure does. *)
Definition then_ {A B : Type} (p : Promise A) (f : A -> Promise B) : Promise B :=
  match p with
  | Resolved a => f a
  | Rejected e => Rejected e
  | Pending => Pending
  end.

(** [p.catch(h)]. *)
Definition catch_ {A : Type} (p : Promise A) (h : Reason -> Promise A) : Promise A :=
  match p with
  | Resolved a => Resolved a
  | Rejected e => h e
  | Pending => Pending
  end.

(** The part of a [Response] the module uses: its status and what
    [response.json()] settles to. *)
Record Response : Type := mkResponse {
  status : Z;
  json : Promise JSON
}.

(** The network: what a GET of a URL settles to. *)
Definition Transport : Type := string -> Promise Response.

(** The observable environment: the clock read by [Date.now()]
    (milliseconds since the epoch) and the GET requests issued so far. *)
Record World : Type := mkWorld {
  Date_now : Z;
  requests : list string
}.

(** The global [fetch(url)]: one GET request, recorded in the world. *)
Definition fetch (net : Transport) (url : string) (w : World) : World * Promise Response :=
  (mkWorld (Date_now w) (requests w ++ [url]), net url).

(** ** The fetcher *)

Definition network_error : AirdropClaimResponse :=
  AirdropClaimError None
    (mkError "network_error" "Network error. Please try again later.").

(** [testnet] is an optional argument with default [false]; [None] is a
    call that leaves it out. *)
Definition fetchAirdropClaim (net : Transport)
    (airdropId connectedAddress : string) (testnet : option bool)
    (w : World) : World * Promise AirdropClaimResponse :=
  let testnet := default false testnet in
  let baseUrl := (if testnet then "testnet" else "mainnet") +:+ "-airdrop.tonapi.io" in
  let url := "https://" +:+ baseUrl +:+ "/v2/airdrop/claim/" +:+ connectedAddress
             +:+ "?id=" +:+ airdropId in
  let '(w', p) := fetch net url w in
  (w',
   catch_
     (then_
        (then_ p (fun response =>
           then_ (json response) (fun data => Resolved (response, data))))
        (fun '(response, data) =>
           Resolved (handleApiResponse (status response) data)))
     (fun _ => Resolved network_error)).

(** ** The transaction builder *)

(** [Math.floor(Date.now() / 1000)]: the clock is an integer number of
    milliseconds, so the floor of the quotient is [Z.div]. *)
Definition getTxFromUserClaim (w : World) (userClaim : UserClaim) : Tx.t :=
  Tx.mk
    (Date_now w / 1000 + 300)
    [ Tx.mkMessage
        (address (claim_message userClaim))
        (amount (claim_message userClaim))
        (payload (claim_message userClaim))
        (state_init (claim_message userClaim)) ].

(** ** Predicates of the specification *)

(** The URL the interface description gives for a network. *)
Definition claim_url (testnet : bool) (address airdropId : string) : string :=
  (if testnet
   then "https://testnet-airdrop.tonapi.io/v2/airdrop/claim/"
   else "https://mainnet-airdrop.tonapi.io/v2/airdrop/claim/")
  +:+ address +:+ "?id=" +:+ airdropId.

(** Amounts are decimal strings of unsigned integers. *)
Definition digit_value (c : Ascii.ascii) : option N :=
  let n := Ascii.N_of_ascii c in
  if ((48 <=? n) && (n <=? 57))%N then Some (n - 48)%N else None.

Fixpoint parse_digits (acc : N) (s : string) : option N :=
  match s with
  | EmptyString => Some acc
  | String c rest =>
      match digit_value c with
      | Some d => parse_digits (10 * acc + d)%N rest
      | None => None
      end
  end.

Definition parse_amount (s : string) : option N :=
  match s with
  | EmptyString => None
  | _ => parse_digits 0 s
  end.

Definition amount_field (key : string) (info : JSON) : option N :=
  match get_field key info with
  | Some (JString s) => parse_amount s
  | _ => None
  end.


(** Both amounts are present and the available one exceeds the total. *)
Definition amounts_inverted (info : JSON) : bool :=
  match amount_field "available_jetton_amount" info,
        amount_field "total_jetton_amount" info with
  | Some a, Some t => (t <? a)%N
  | _, _ => false
  end.


(** The declared interfaces, read on a parsed value: which values are
    an [InternalMessage], a [UserClaimInfo], a [UserClaim]. *)
Definition has_string (key : string) (v : JSON) : bool :=
  match get_field key v with
  | Some (JString _) => true
  | _ => false
  end.

Definition has_number (key : string) (v : JSON) : bool :=
  match get_field key v with
  | Some (JNumber _) => true
  | _ => false
  end.

(** An optional string property: absent, or a string. *)
Definition has_optional_string (key : string) (v : JSON) : bool :=
  match get_field key v with
  | None | Some (JString _) => true
  | _ => false
  end.

(** An optional property of the empty interface [VestingParameters]:
    absent, or any value but [null]. *)
Definition has_optional_value (key : string) (v : JSON) : bool :=
  match get_field key v with
  | Some JNull => false
  | _ => true
  end.

Definition is_InternalMessage (v : JSON) : bool :=
  has_number "mode" v
  && has_string "address" v
  && has_optional_string "state_init" v
  && has_string "payload" v
  && has_string "amount" v.

Definition is_UserClaimInfo (v : JSON) : bool :=
  has_string "jetton" v
  && has_string "available_jetton_amount" v
  && has_string "total_jetton_amount" v
  && has_string "claimed_jetton_amount" v
  && has_optional_value "vesting_parameters" v.

Definition is_UserClaim (v : JSON) : bool :=
  is_UserClaimInfo v
  && match get_field "claim_message" v with
     | Some m => is_InternalMessage m
     | None => false
     end.

(** A value of the result union as it is declared: a success whose [info]
    is a [UserClaimInfo] and whose [claim] is a [UserClaim], or a failure
    whose [info], when present, is a [UserClaimInfo]. *)
Definition is_ClaimResult (r : AirdropClaimResponse) : bool :=
  match r with
  | AirdropClaimSuccess i c => is_UserClaimInfo i && is_UserClaim c
  | AirdropClaimError None _ => true
  | AirdropClaimError (Some i) _ => is_UserClaimInfo i
  end.

(** The exchange itself failed: the request was rejected, or the body
    could not be read as JSON. *)
Definition exchange_failed (p : Promise Response) : Prop :=
  match p with
  | Rejected _ => True
  | Resolved response =>
      match json response with
      | Rejected _ => True
      | _ => False
      end
  | Pending => False
  end.

(** What the promise chain of [fetchAirdropClaim] makes of the outcome of
    the GET, case by case. *)
Definition exchange_result (p : Promise Response) : Promise AirdropClaimResponse :=
  match p with
  | Resolved response =>
      match json response with
      | Resolved data => Resolved (handleApiResponse (status response) data)
      | Rejected _ => Resolved network_error
      | Pending => Pending
      end
  | Rejected _ => Resolved network_error
  | Pending => Pending
  end.



(** A server that answers every GET with [status] and JSON [body]. *)
Definition answering (status : Z) (body : JSON) : Transport :=
  fun _ => Resolved (mkResponse status (Resolved body)).

(** ** The transaction builder at run time *)

(** The argument of [getTxFromUserClaim] is in practice the [claim] of a
    success, that is a parsed body that nothing has checked against
    [UserClaim].  The definitions below follow the same source function on
    such a value, with JavaScript's property reads. *)

(** How the evaluation of an expression ends. *)
Inductive Completion (A : Type) : Type :=
| Return (a : A)
| Throw (reason : Reason).

Arguments Return {A} a.
Arguments Throw {A} reason.

#[global] Instance Completion_bind : MBind Completion :=
  fun A B f c =>
    match c with
    | Return a => f a
    | Throw e => Throw e
    end.

(** [v.key] where [v] is a parsed value or [undefined] ([None]).  Reading
    a property of [undefined] or [null] throws a [TypeError]; on any other
    value a key that is neither an own property nor on a built-in prototype
    (none of the keys read by the module is) gives [undefined]. *)
Definition js_get (key : string) (v : option JSON) : Completion (option JSON) :=
  match v with
  | None => Throw (TypeError "Cannot read properties of undefined")
  | Some JNull => Throw (TypeError "Cannot read properties of null")
  | Some v => Return (get_field key v)
  end.

(** The descriptor as a run-time object: every field is whatever value
    was read, [None] for [undefined]. *)
Module JsTx.
Record message : Type := mkMessage {
  address : option JSON;
  amount : option JSON;
  payload : option JSON;
  stateInit : option JSON
}.

Record t : Type := mk {
  validUntil : Z;
  messages : list message
}.
End JsTx.

(** [getTxFromUserClaim] on a parsed value: the properties of the object
    literal are evaluated in order, and [userClaim.claim_message] is read
    anew for each of the four fields. *)
Definition getTxFromUserClaim_js (w : World) (userClaim : JSON) : Completion JsTx.t :=
  let validUntil := Date_now w / 1000 + 300 in
  claim_message ← js_get "claim_message" (Some userClaim);
  address ← js_get "address" claim_message;
  claim_message ← js_get "claim_message" (Some userClaim);
  amount ← js_get "amount" claim_message;
  claim_message ← js_get "claim_message" (Some userClaim);
  payload ← js_get "payload" claim_message;
  claim_message ← js_get "claim_message" (Some userClaim);
  stateInit ← js_get "state_init" claim_message;
  Return (JsTx.mk validUntil [ JsTx.mkMessage address amount payload stateInit ]).

(** The JSON objects of the declared interfaces: an optional property
    that is not set is left out. *)
Definition optional_member (key : string) (v : option JSON) : list (string * JSON) :=
  match v with
  | Some v => [ (key, v) ]
  | None => []
  end.

Definition InternalMessage_to_JSON (m : InternalMessage) : JSON :=
  JObject
    ([ ("mode", JNumber (mode m)); ("address", JString (address m)) ]
     ++ optional_member "state_init" (JString <$> state_init m)
     ++ [ ("payload", JString (payload m)); ("amount", JString (amount m)) ]).

Definition UserClaim_to_JSON (c : UserClaim) : JSON :=
  JObject
    ([ ("jetton", JString (jetton c));
       ("available_jetton_amount", JString (available_jetton_amount c));
       ("total_jetton_amount", JString (total_jetton_amount c));
       ("claimed_jetton_amount", JString (claimed_jetton_amount c)) ]
     ++ optional_member "vesting_parameters"
          ((fun _ => JObject []) <$> vesting_parameters c)
     ++ [ ("claim_message", InternalMessage_to_JSON (claim_message c)) ]).

Definition Tx_to_js (tx : Tx.t) : JsTx.t :=
  JsTx.mk (Tx.validUntil tx)
    (map (fun m =>
            JsTx.mkMessage
              (Some (JString (Tx.address m)))
              (Some (JString (Tx.amount m)))
              (Some (JString (Tx.payload m)))
              (JString <$> Tx.stateInit m))
         (Tx.messages tx)).

(** The code and message pairs the classifier can put in an error. *)
Definition error_table : list ErrorInfo :=
  [ mkError "not_found" "Airdrop not found or not processed yet";
    mkError "too_early" "The nearest vesting date has not arrived yet";
    mkError "already_claimed" "All Jettons have already been claimed";
    mkError "locked" "Airdrop is locked by admin";
    mkError "blockchain_overload" "Blockchain is currently overloaded";
    mkError "unknown_error" "Unknown error occurred" ].

(** * Properties *)

(** ** Reading the status table *)

Lemma Number_toString_inj (a b : Z) :
  Number_toString a = Number_toString b -> a = b.
Proof. unfold Number_toString. apply (inj pretty). Qed.

(** A status outside the table finds nothing in it. *)
Lemma statusCodeMapping_miss (status : Z) :
  status ≠ 404 -> status ≠ 425 -> status ≠ 409 -> status ≠ 423 -> status ≠ 429 ->
  statusCodeMapping !! Number_toString status = None.
Proof.
  intros H404 H425 H409 H423 H429.
  unfold statusCodeMapping. cbn [list_to_map foldr fst snd uncurry].
  rewrite !lookup_insert_ne; [apply lookup_empty | ..];
    intros E;
    [ change "429" with (Number_toString 429) in E
    | change "423" with (Number_toString 423) in E
    | change "409" with (Number_toString 409) in E
    | change "425" with (Number_toString 425) in E
    | change "404" with (Number_toString 404) in E ];
    apply Number_toString_inj in E; congruence.
Qed.

Lemma errorMessage_of_miss (status : Z) :
  status ≠ 404 -> status ≠ 425 -> status ≠ 409 -> status ≠ 423 -> status ≠ 429 ->
  errorMessage_of status = "Unknown error occurred".
Proof.
  intros H404 H425 H409 H423 H429. unfold errorMessage_of.
  repeat match goal with
         | |- context [?a =? ?b] => destruct (Z.eqb_spec a b); [congruence |]
         end.
  reflexivity.
Qed.

(** ** The classifier *)

(** C1: for every body, classifying a response of status 200 gives a
    success whose [info] and [claim] are both that body. *)
Theorem classify_200_success (body : JSON) :
  handleApiResponse 200 body = AirdropClaimSuccess body body
  ∧ success (handleApiResponse 200 body) = true
  ∧ info_of (handleApiResponse 200 body) = Some body
  ∧ claim_of (handleApiResponse 200 body) = Some body.
Proof. repeat split. Qed.

(** C2: for every body, each status of the table 404, 425, 409, 423, 429
    gives a failure whose [info] is the body and whose code and message are
    the pair of the table. *)
Theorem classify_table_statuses (body : JSON) :
  handleApiResponse 404 body
    = AirdropClaimError (Some body)
        (mkError "not_found" "Airdrop not found or not processed yet")
  ∧ handleApiResponse 425 body
    = AirdropClaimError (Some body)
        (mkError "too_early" "The nearest vesting date has not arrived yet")
  ∧ handleApiResponse 409 body
    = AirdropClaimError (Some body)
        (mkError "already_claimed" "All Jettons have already been claimed")
  ∧ handleApiResponse 423 body
    = AirdropClaimError (Some body)
        (mkError "locked" "Airdrop is locked by admin")
  ∧ handleApiResponse 429 body
    = AirdropClaimError (Some body)
        (mkError "blockchain_overload" "Blockchain is currently overloaded").
Proof. repeat split; vm_compute; reflexivity. Qed.

(** C3: for every body and every status outside 200, 404, 425, 409, 423,
    429, the result is a failure with code [unknown_error], message
    [Unknown error occurred] and the body as [info]. *)
Theorem classify_other_status (status : Z) (body : JSON) :
  status ≠ 200 ->
  status ≠ 404 -> status ≠ 425 -> status ≠ 409 -> status ≠ 423 -> status ≠ 429 ->
  handleApiResponse status body
    = AirdropClaimError (Some body)
        (mkError "unknown_error" "Unknown error occurred").
Proof.
  intros H200 H404 H425 H409 H423 H429. unfold handleApiResponse.
  destruct (Z.eqb_spec status 200); [congruence |].
  rewrite statusCodeMapping_miss, errorMessage_of_miss by assumption.
  reflexivity.
Qed.

Lemma classify_other_status_witness :
  handleApiResponse 500 (JObject [])
    = AirdropClaimError (Some (JObject []))
        (mkError "unknown_error" "Unknown error occurred").
Proof. apply (classify_other_status 500 (JObject [])); lia. Defined.

(** [with_body] on a classification: the body is carried, never read. *)
Lemma handleApiResponse_info (status : Z) (body : JSON) :
  info_of (handleApiResponse status body) = Some body.
Proof. unfold handleApiResponse. destruct (status =? 200); reflexivity. Qed.

Lemma handleApiResponse_success (status : Z) (body : JSON) :
  success (handleApiResponse status body) = (status =? 200).
Proof. unfold handleApiResponse. destruct (status =? 200); reflexivity. Qed.

Lemma handleApiResponse_error (status : Z) (body : JSON) :
  status ≠ 200 ->
  handleApiResponse status body
    = AirdropClaimError (Some body)
        (mkError (js_or (statusCodeMapping !! Number_toString status) "unknown_error")
                 (errorMessage_of status)).
Proof.
  intros H. unfold handleApiResponse.
  destruct (Z.eqb_spec status 200); [congruence | reflexivity].
Qed.

(** Every status is 200, one of the five of the table, or none of them. *)
Lemma status_cases (status : Z) :
  status = 200 ∨ status = 404 ∨ status = 425 ∨ status = 409 ∨ status = 423
  ∨ status = 429
  ∨ (status ≠ 200 ∧ status ≠ 404 ∧ status ≠ 425 ∧ status ≠ 409 ∧ status ≠ 423
     ∧ status ≠ 429).
Proof. lia. Qed.



(** ** The fetcher *)

Section Fetch.
Variable net : Transport.
Variables airdropId connectedAddress : string.
Variable w : World.

(** The chain of [then]s and the [catch], unfolded: one request to the
    claim URL is recorded, and the promise is [exchange_result] of what
    the network answers there. *)
Lemma fetchAirdropClaim_unfold (testnet : option bool) :
  fetchAirdropClaim net airdropId connectedAddress testnet w
  = (mkWorld (Date_now w)
       (requests w ++ [claim_url (default false testnet) connectedAddress airdropId]),
     exchange_result
       (net (claim_url (default false testnet) connectedAddress airdropId))).
Proof.
  unfold fetchAirdropClaim, fetch. cbv zeta.
  set (url := "https://" +:+ _).
  assert (url = claim_url (default false testnet) connectedAddress airdropId)
    as -> by (subst url; unfold claim_url; destruct (default false testnet); reflexivity).
  f_equal.
  destruct (net _) as [[st [d | e | ]] | e | ]; reflexivity.
Qed.

(** C6: for every airdrop id, address and testnet flag, exactly one GET is
    issued, to the testnet or mainnet claim URL with the address and the id
    inserted as they are. *)
Theorem fetch_request_url (testnet : bool) :
  requests (fetchAirdropClaim net airdropId connectedAddress (Some testnet) w).1
  = (requests w ++
      [ if testnet
        then "https://testnet-airdrop.tonapi.io/v2/airdrop/claim/"
             +:+ connectedAddress +:+ "?id=" +:+ airdropId
        else "https://mainnet-airdrop.tonapi.io/v2/airdrop/claim/"
             +:+ connectedAddress +:+ "?id=" +:+ airdropId ])%list.
Proof.
  rewrite fetchAirdropClaim_unfold. cbn [fst requests default from_option claim_url].
  destruct testnet; reflexivity.
Qed.

(** X9: leaving the flag out asks the mainnet host. *)
Lemma fetch_request_url_default :
  requests (fetchAirdropClaim net airdropId connectedAddress None w).1
  = (requests w ++
      [ "https://mainnet-airdrop.tonapi.io/v2/airdrop/claim/"
        +:+ connectedAddress +:+ "?id=" +:+ airdropId ])%list.
Proof. rewrite fetchAirdropClaim_unfold. reflexivity. Qed.

(** The clock is not touched by a fetch. *)
Lemma fetch_keeps_clock (testnet : option bool) :
  Date_now (fetchAirdropClaim net airdropId connectedAddress testnet w).1 = Date_now w.
Proof. rewrite fetchAirdropClaim_unfold. reflexivity. Qed.

Lemma exchange_result_not_rejected (p : Promise Response) (e : Reason) :
  exchange_result p ≠ Rejected e.
Proof. destruct p as [[st [d | e' | ]] | e' | ]; discriminate. Qed.

Lemma exchange_result_failed (p : Promise Response) :
  exchange_failed p -> exchange_result p = Resolved network_error.
Proof. destruct p as [[st [d | e' | ]] | e' | ]; cbn; intros H; done. Qed.

(** C4: whatever the transport does, the promise returned by the fetch is
    never rejected; and when the exchange itself fails (the request is
    rejected, or the body does not parse as JSON), it resolves to the
    [network_error] failure, which has no [info]. *)
Theorem fetch_network_error (testnet : option bool) :
  (∀ e : Reason,
      (fetchAirdropClaim net airdropId connectedAddress testnet w).2 ≠ Rejected e)
  ∧ (exchange_failed
       (net (claim_url (default false testnet) connectedAddress airdropId)) ->
     (fetchAirdropClaim net airdropId connectedAddress testnet w).2
     = Resolved
         (AirdropClaimError None
            (mkError "network_error" "Network error. Please try again later."))).
Proof.
  rewrite fetchAirdropClaim_unfold. cbn [snd]. split.
  - intros e. apply exchange_result_not_rejected.
  - apply exchange_result_failed.
Qed.

(** A resolved fetch is the network error or a classification of the
    body the server sent. *)
Lemma fetch_resolved_inv (testnet : option bool) (r : AirdropClaimResponse) :
  (fetchAirdropClaim net airdropId connectedAddress testnet w).2 = Resolved r ->
  r = network_error
  ∨ ∃ response body,
      net (claim_url (default false testnet) connectedAddress airdropId)
      = Resolved response
      ∧ json response = Resolved body
      ∧ r = handleApiResponse (status response) body.
Proof.
  rewrite fetchAirdropClaim_unfold. cbn [snd]. unfold exchange_result.
  destruct (net _) as [response | e | ]; [| intros [= <-]; by left | done].
  destruct (json response) as [body | e | ] eqn:Hjson;
    [| intros [= <-]; by left | done].
  intros [= <-]. right. by exists response, body.
Qed.

(** C9: a failure produced by the classifier carries the body as [info];
    so a failure that a fetch resolves to and that has no [info] is the
    network error. *)
Theorem failure_without_info_is_network_error
    (testnet : option bool) (status : Z) (body : JSON) (r : AirdropClaimResponse) :
  (status ≠ 200 ->
   success (handleApiResponse status body) = false
   ∧ info_of (handleApiResponse status body) = Some body)
  ∧ ((fetchAirdropClaim net airdropId connectedAddress testnet w).2 = Resolved r ->
     success r = false -> info_of r = None ->
     ∃ e, error_of r = Some e ∧ code e = "network_error").
Proof.
  split.
  - intros H. rewrite handleApiResponse_success, handleApiResponse_info.
    split; [by apply Z.eqb_neq | done].
  - intros Hr _ Hinfo.
    destruct (fetch_resolved_inv testnet r Hr) as [-> | (response & data & _ & _ & ->)].
    + by eexists.
    + by rewrite handleApiResponse_info in Hinfo.
Qed.

End Fetch.

(** A request that fails on the network, and a body that is not JSON. *)
Lemma fetch_network_error_witness :
  (fetchAirdropClaim (fun _ => Rejected (TypeError "Failed to fetch"))
     "airdrop-1" "UQAddr" None (mkWorld 1700000000000 [])).2
  = Resolved
      (AirdropClaimError None
         (mkError "network_error" "Network error. Please try again later."))
  ∧ (fetchAirdropClaim
       (fun _ => Resolved (mkResponse 404 (Rejected (SyntaxError "Unexpected token <"))))
       "airdrop-1" "UQAddr" (Some true) (mkWorld 1700000000000 [])).2
    = Resolved
        (AirdropClaimError None
           (mkError "network_error" "Network error. Please try again later.")).
Proof.
  split.
  - apply (fetch_network_error (fun _ => Rejected (TypeError "Failed to fetch"))
             "airdrop-1" "UQAddr" (mkWorld 1700000000000 []) None).
    exact I.
  - apply (fetch_network_error
             (fun _ => Resolved (mkResponse 404 (Rejected (SyntaxError "Unexpected token <"))))
             "airdrop-1" "UQAddr" (mkWorld 1700000000000 []) (Some true)).
    exact I.
Defined.

Lemma failure_without_info_is_network_error_witness :
  (success (handleApiResponse 409 (JObject [])) = false
   ∧ info_of (handleApiResponse 409 (JObject [])) = Some (JObject []))
  ∧ ∃ e, error_of network_error = Some e ∧ code e = "network_error".
Proof.
  pose proof (failure_without_info_is_network_error
                (fun _ => Rejected (TypeError "Failed to fetch"))
                "airdrop-1" "UQAddr" (mkWorld 1700000000000 []) None
                409 (JObject []) network_error) as [Hclassify Hfetch].
  split.
  - apply Hclassify. lia.
  - apply Hfetch; reflexivity.
Defined.



(** ** The transaction builder *)

(** C5: for every claim, the descriptor has exactly one message, whose
    address, amount and payload are those of the claim message, whose
    [stateInit] is its [state_init], and whose [validUntil] is the floor of
    the clock in seconds, plus 300. *)
Theorem getTxFromUserClaim_spec (w : World) (userClaim : UserClaim) :
  length (Tx.messages (getTxFromUserClaim w userClaim)) = 1%nat
  ∧ Tx.messages (getTxFromUserClaim w userClaim)
    = [ Tx.mkMessage
          (address (claim_message userClaim))
          (amount (claim_message userClaim))
          (payload (claim_message userClaim))
          (state_init (claim_message userClaim)) ]
  ∧ Tx.validUntil (getTxFromUserClaim w userClaim) = Date_now w / 1000 + 300
  ∧ 1000 * (Tx.validUntil (getTxFromUserClaim w userClaim) - 300) <= Date_now w
    < 1000 * (Tx.validUntil (getTxFromUserClaim w userClaim) - 300) + 1000.
Proof.
  repeat split; cbn [getTxFromUserClaim Tx.validUntil].
  - pose proof (Z.mul_div_le (Date_now w) 1000). lia.
  - pose proof (Z.mod_pos_bound (Date_now w) 1000).
    pose proof (Z.div_mod (Date_now w) 1000). lia.
Qed.

(** C10: the messages of the descriptor depend only on the address,
    amount, payload and state init of the claim message: two claims that
    agree on these four give the same messages whatever their jetton,
    amounts, vesting parameters, message modes and clocks; with equal clocks
    the whole descriptors are equal. *)
Theorem getTxFromUserClaim_depends_on_message
    (w1 w2 : World) (claim1 claim2 : UserClaim) :
  address (claim_message claim1) = address (claim_message claim2) ->
  amount (claim_message claim1) = amount (claim_message claim2) ->
  payload (claim_message claim1) = payload (claim_message claim2) ->
  state_init (claim_message claim1) = state_init (claim_message claim2) ->
  Tx.messages (getTxFromUserClaim w1 claim1) = Tx.messages (getTxFromUserClaim w2 claim2)
  ∧ (Date_now w1 = Date_now w2 ->
     getTxFromUserClaim w1 claim1 = getTxFromUserClaim w2 claim2).
Proof.
  intros Haddress Hamount Hpayload Hinit. unfold getTxFromUserClaim.
  cbn [Tx.messages]. rewrite Haddress, Hamount, Hpayload, Hinit.
  split; [reflexivity |]. intros ->. reflexivity.
Qed.

Lemma getTxFromUserClaim_depends_on_message_witness :
  Tx.messages
    (getTxFromUserClaim (mkWorld 1700000000000 [])
       (mkUserClaim (mkUserClaimInfo "X" "100" "100" "0" None)
          (mkInternalMessage 3 "A" None "P" "100")))
  = Tx.messages
      (getTxFromUserClaim (mkWorld 1800000000999 ["https://example.org"])
         (mkUserClaim (mkUserClaimInfo "Y" "7" "9" "2" (Some mkVestingParameters))
            (mkInternalMessage 64 "A" None "P" "100"))).
Proof.
  apply (getTxFromUserClaim_depends_on_message
           (mkWorld 1700000000000 [])
           (mkWorld 1800000000999 ["https://example.org"])
           (mkUserClaim (mkUserClaimInfo "X" "100" "100" "0" None)
              (mkInternalMessage 3 "A" None "P" "100"))
           (mkUserClaim (mkUserClaimInfo "Y" "7" "9" "2" (Some mkVestingParameters))
              (mkInternalMessage 64 "A" None "P" "100")));
    reflexivity.
Defined.

(** The scenarios of the specification. *)
Example scenario_already_claimed :
  handleApiResponse 409 (JObject [])
  = AirdropClaimError (Some (JObject []))
      (mkError "already_claimed" "All Jettons have already been claimed").
Proof. vm_compute. reflexivity. Qed.

Example scenario_valid_until :
  Tx.validUntil
    (getTxFromUserClaim (mkWorld 1700000000999 [])
       (mkUserClaim (mkUserClaimInfo "X" "100" "100" "0" None)
          (mkInternalMessage 3 "A" None "P" "100")))
  = 1700000300.
Proof. reflexivity. Qed.

(** * Further properties of the module *)

(** ** The two tables of the classifier *)

(** The error of a classification is one of the six pairs. *)
Lemma handleApiResponse_error_table (status : Z) (body : JSON) (e : ErrorInfo) :
  error_of (handleApiResponse status body) = Some e -> e ∈ error_table.
Proof.
  destruct (status_cases status)
    as [-> | [-> | [-> | [-> | [-> | [-> | (H200 & H404 & H425 & H409 & H423 & H429)]]]]]].
  1: discriminate.
  1-5: vm_compute; intros [= <-]; set_solver.
  rewrite handleApiResponse_error, statusCodeMapping_miss, errorMessage_of_miss
    by assumption.
  intros [= <-]. set_solver.
Qed.

(** X1: the code table ([statusCodeMapping]) and the message [switch] are kept
    apart in the source; they cover the same statuses, so across any two
    classifications the codes agree exactly when the messages do. *)
Theorem classify_code_matches_message
    (status1 status2 : Z) (body1 body2 : JSON) (e1 e2 : ErrorInfo) :
  error_of (handleApiResponse status1 body1) = Some e1 ->
  error_of (handleApiResponse status2 body2) = Some e2 ->
  code e1 = code e2 ↔ message e1 = message e2.
Proof.
  intros H1 H2.
  apply handleApiResponse_error_table in H1, H2.
  unfold error_table in H1, H2.
  repeat (apply elem_of_cons in H1 as [-> | H1]);
    [.. | by apply elem_of_nil in H1];
    repeat (apply elem_of_cons in H2 as [-> | H2]);
    try (by apply elem_of_nil in H2);
    split; intros H; first [discriminate H | reflexivity].
Qed.

Lemma classify_code_matches_message_witness :
  code (mkError "unknown_error" "Unknown error occurred")
  = code (mkError "unknown_error" "Unknown error occurred")
  ↔ message (mkError "unknown_error" "Unknown error occurred")
    = message (mkError "unknown_error" "Unknown error occurred").
Proof.
  apply (classify_code_matches_message 500 503 JNull (JObject [])); reflexivity.
Defined.

(** ** What a fetch resolves to *)

Section FetchOutcome.
Variable net : Transport.
Variables airdropId connectedAddress : string.
Variable testnet : option bool.
Variable w : World.

(** X2: a fetch resolves to a success exactly when the server answers the claim
    URL with status 200 and a body that parses; the success then carries
    that body as [info] and as [claim]. *)
Theorem fetch_success_iff (r : AirdropClaimResponse) :
  (fetchAirdropClaim net airdropId connectedAddress testnet w).2 = Resolved r
  ∧ success r = true
  ↔ ∃ response body,
      net (claim_url (default false testnet) connectedAddress airdropId)
      = Resolved response
      ∧ status response = 200
      ∧ json response = Resolved body
      ∧ r = AirdropClaimSuccess body body.
Proof.
  rewrite fetchAirdropClaim_unfold. cbn [snd]. split.
  - intros [Hr Hsuccess]. unfold exchange_result in Hr.
    destruct (net _) as [response | e | ]; [| by injection Hr as <- | done].
    destruct (json response) as [body | e | ] eqn:Hjson;
      [| by injection Hr as <- | done].
    injection Hr as <-. rewrite handleApiResponse_success in Hsuccess.
    apply Z.eqb_eq in Hsuccess. exists response, body.
    by rewrite Hsuccess.
  - intros (response & body & -> & Hstatus & Hjson & ->).
    cbn. by rewrite Hjson, Hstatus.
Qed.

(** X3: a failure a fetch resolves to is either the network error, without
    [info], after a failed exchange, or the classification of an answer of
    status other than 200, with the body the server sent as [info] and a
    pair of the classifier's table as error. *)
Theorem fetch_failure_inv (info : option JSON) (e : ErrorInfo) :
  (fetchAirdropClaim net airdropId connectedAddress testnet w).2
  = Resolved (AirdropClaimError info e) ->
  (info = None
   ∧ e = mkError "network_error" "Network error. Please try again later."
   ∧ exchange_failed
       (net (claim_url (default false testnet) connectedAddress airdropId)))
  ∨ (∃ response body,
        net (claim_url (default false testnet) connectedAddress airdropId)
        = Resolved response
        ∧ json response = Resolved body
        ∧ status response ≠ 200
        ∧ info = Some body
        ∧ e ∈ error_table).
Proof.
  rewrite fetchAirdropClaim_unfold. cbn [snd]. unfold exchange_result, exchange_failed.
  destruct (net _) as [response | reason | ];
    [| intros [= <- <-]; by left | done].
  destruct (json response) as [body | reason | ] eqn:Hjson;
    [| intros [= <- <-]; by left | done].
  intros [= Hr]. right. exists response, body.
  destruct (Z.eqb_spec (status response) 200) as [H200 | H200].
  - rewrite H200 in Hr. discriminate.
  - repeat split; try done.
    + pose proof (handleApiResponse_info (status response) body) as Hi.
      by rewrite Hr in Hi.
    + apply (handleApiResponse_error_table (status response) body).
      by rewrite Hr.
Qed.

(** X4: the module sets no timeout: the promise of a fetch stays pending
    exactly when the request, or the reading of the body, never settles. *)
Theorem fetch_pending_iff :
  (fetchAirdropClaim net airdropId connectedAddress testnet w).2 = Pending
  ↔ net (claim_url (default false testnet) connectedAddress airdropId) = Pending
    ∨ ∃ response,
        net (claim_url (default false testnet) connectedAddress airdropId)
        = Resolved response
        ∧ json response = Pending.
Proof.
  rewrite fetchAirdropClaim_unfold. cbn [snd]. unfold exchange_result. split.
  - destruct (net _) as [response | reason | ]; [| done | by left].
    destruct (json response) eqn:Hjson; [done | done |].
    intros _. right. by exists response.
  - intros [-> | (response & -> & Hjson)]; [done |]. by rewrite Hjson.
Qed.
End FetchOutcome.

Lemma fetch_failure_inv_witness :
  (Some (JObject []) = None
   ∧ mkError "locked" "Airdrop is locked by admin"
     = mkError "network_error" "Network error. Please try again later."
   ∧ exchange_failed
       (answering 423 (JObject []) (claim_url (default false (Some true)) "UQAddr" "airdrop-1")))
  ∨ (∃ response body,
        answering 423 (JObject []) (claim_url (default false (Some true)) "UQAddr" "airdrop-1")
        = Resolved response
        ∧ json response = Resolved body
        ∧ status response ≠ 200
        ∧ Some (JObject []) = Some body
        ∧ mkError "locked" "Airdrop is locked by admin" ∈ error_table).
Proof.
  apply (fetch_failure_inv (answering 423 (JObject [])) "airdrop-1" "UQAddr"
           (Some true) (mkWorld 1700000000000 [])).
  vm_compute. reflexivity.
Defined.

(** ** The request URL *)

Lemma string_app_assoc (a b c : string) : (a +:+ b) +:+ c = a +:+ (b +:+ c).
Proof. induction a as [| ch a IH]; [reflexivity |]. change (String ch ((a +:+ b) +:+ c) = String ch (a +:+ (b +:+ c))). by rewrite IH. Qed.

Lemma string_app_empty (a : string) : a +:+ "" = a.
Proof.
  induction a as [| ch a IH]; [reflexivity |].
  change (String ch (a +:+ "") = String ch a). by rewrite IH.
Qed.

Lemma claim_url_network (a1 i1 a2 i2 : string) :
  claim_url true a1 i1 ≠ claim_url false a2 i2.
Proof. unfold claim_url. cbn. discriminate. Qed.

Lemma requests_after_fetch_inj (l : list string) (u1 u2 : string) :
  (l ++ [u1])%list = (l ++ [u2])%list -> u1 = u2.
Proof. intros H. apply app_inv_head in H. by injection H. Qed.

Section Requests.
Variable net : Transport.
Variable w : World.

(** X5: no caching and no deduplication: each call issues its own GET, so two
    calls in a row leave two requests in the log, in call order, also when
    their arguments are the same. *)
Theorem fetch_twice_requests
    (id1 address1 : string) (testnet1 : option bool)
    (id2 address2 : string) (testnet2 : option bool) :
  requests
    (fetchAirdropClaim net id2 address2 testnet2
       (fetchAirdropClaim net id1 address1 testnet1 w).1).1
  = (requests w
     ++ [ claim_url (default false testnet1) address1 id1;
          claim_url (default false testnet2) address2 id2 ])%list.
Proof.
  rewrite !fetchAirdropClaim_unfold. cbn [fst requests].
  by rewrite <- app_assoc.
Qed.

(** X6: a testnet call and a mainnet call never issue the same request,
    whatever their addresses and ids. *)
Theorem fetch_networks_apart (id1 address1 id2 address2 : string) :
  requests (fetchAirdropClaim net id1 address1 (Some true) w).1
  ≠ requests (fetchAirdropClaim net id2 address2 (Some false) w).1.
Proof.
  rewrite !fetchAirdropClaim_unfold. cbn [fst requests default from_option].
  intros H. apply requests_after_fetch_inj in H.
  by apply claim_url_network in H.
Qed.

(** X8: nothing is escaped: an address that contains the text [?id=] moves
    the boundary between address and id, so two different pairs of
    arguments issue the same request and get the same answer. *)
Theorem fetch_address_id_boundary (a b c : string) (testnet : option bool) :
  a +:+ "?id=" +:+ b ≠ a
  ∧ fetchAirdropClaim net c (a +:+ "?id=" +:+ b) testnet w
    = fetchAirdropClaim net (b +:+ "?id=" +:+ c) a testnet w.
Proof.
  split.
  - intros H. rewrite <- (string_app_empty a) in H at 2.
    apply (inj (String.app _)) in H. discriminate.
  - rewrite !fetchAirdropClaim_unfold.
    assert (claim_url (default false testnet) (a +:+ "?id=" +:+ b) c
            = claim_url (default false testnet) a (b +:+ "?id=" +:+ c)) as ->;
      [| reflexivity].
    unfold claim_url. f_equal.
    rewrite string_app_assoc. f_equal.
Qed.
End Requests.

(** ** The transaction builder on a parsed body *)

Lemma js_get_value (key : string) (v : JSON) :
  v ≠ JNull -> js_get key (Some v) = Return (get_field key v).
Proof. by destruct v. Qed.

(** A read of [claim_message] on a parsed value does not throw unless the
    value is [null], and then nothing is found either. *)
Lemma js_get_claim_message (userClaim : JSON) :
  js_get "claim_message" (Some userClaim)
  = Return (get_field "claim_message" userClaim)
  ∨ (userClaim = JNull ∧ get_field "claim_message" userClaim = None).
Proof. destruct userClaim; auto. Qed.

(** With a claim message that is an actual value, nothing throws: each of
    the four fields is what the message has under that key. *)
Lemma getTxFromUserClaim_js_returns (w : World) (userClaim message : JSON) :
  get_field "claim_message" userClaim = Some message ->
  message ≠ JNull ->
  getTxFromUserClaim_js w userClaim
  = Return
      (JsTx.mk (Date_now w / 1000 + 300)
         [ JsTx.mkMessage
             (get_field "address" message)
             (get_field "amount" message)
             (get_field "payload" message)
             (get_field "state_init" message) ]).
Proof.
  intros Hmessage Hnull. unfold getTxFromUserClaim_js.
  destruct (js_get_claim_message userClaim) as [-> | [_ H]];
    [| congruence].
  rewrite Hmessage. cbn [mbind Completion_bind].
  by rewrite !js_get_value.
Qed.

Lemma getTxFromUserClaim_js_throws (w : World) (userClaim : JSON) :
  get_field "claim_message" userClaim = None
  ∨ get_field "claim_message" userClaim = Some JNull ->
  ∃ reason, getTxFromUserClaim_js w userClaim = Throw reason.
Proof.
  unfold getTxFromUserClaim_js.
  destruct (js_get_claim_message userClaim) as [-> | [-> _]];
    [| intros _; by eexists].
  intros [-> | ->]; by eexists.
Qed.


(** X11: a missing field inside the claim message does not throw: the
    descriptor is built with [undefined] in its place, and the fields that
    are there are passed on whatever their type. *)
Theorem getTxFromUserClaim_js_passes_fields
    (w : World) (userClaim message : JSON) :
  get_field "claim_message" userClaim = Some message ->
  message ≠ JNull ->
  ∃ tx m,
    getTxFromUserClaim_js w userClaim = Return tx
    ∧ JsTx.validUntil tx = Date_now w / 1000 + 300
    ∧ JsTx.messages tx = [m]
    ∧ JsTx.address m = get_field "address" message
    ∧ JsTx.amount m = get_field "amount" message
    ∧ JsTx.payload m = get_field "payload" message
    ∧ JsTx.stateInit m = get_field "state_init" message.
Proof.
  intros Hmessage Hnull.
  rewrite (getTxFromUserClaim_js_returns w userClaim message Hmessage Hnull).
  by eexists _, _.
Qed.

Lemma getTxFromUserClaim_js_passes_fields_witness :
  ∃ tx m,
    getTxFromUserClaim_js (mkWorld 1700000000999 [])
      (JObject [ ("claim_message", JObject [ ("address", JNumber 7) ]) ])
    = Return tx
    ∧ JsTx.validUntil tx = Date_now (mkWorld 1700000000999 []) / 1000 + 300
    ∧ JsTx.messages tx = [m]
    ∧ JsTx.address m = get_field "address" (JObject [ ("address", JNumber 7) ])
    ∧ JsTx.amount m = get_field "amount" (JObject [ ("address", JNumber 7) ])
    ∧ JsTx.payload m = get_field "payload" (JObject [ ("address", JNumber 7) ])
    ∧ JsTx.stateInit m = get_field "state_init" (JObject [ ("address", JNumber 7) ]).
Proof.
  apply (getTxFromUserClaim_js_passes_fields (mkWorld 1700000000999 [])
           (JObject [ ("claim_message", JObject [ ("address", JNumber 7) ]) ])
           (JObject [ ("address", JNumber 7) ])).
  - reflexivity.
  - discriminate.
Defined.

Lemma get_field_claim_message (c : UserClaim) :
  get_field "claim_message" (UserClaim_to_JSON c)
  = Some (InternalMessage_to_JSON (claim_message c)).
Proof. destruct c as [[? ? ? ? [v |]] m]; reflexivity. Qed.

(** X12: on the JSON object of a [UserClaim], the builder at run time returns
    the descriptor of the typed builder: the same deadline, and one message
    with the same strings, [stateInit] being [undefined] when the claim has
    no [state_init]. *)
Theorem getTxFromUserClaim_js_typed (w : World) (userClaim : UserClaim) :
  getTxFromUserClaim_js w (UserClaim_to_JSON userClaim)
  = Return (Tx_to_js (getTxFromUserClaim w userClaim)).
Proof.
  rewrite (getTxFromUserClaim_js_returns w _ _ (get_field_claim_message userClaim))
    by (unfold InternalMessage_to_JSON; discriminate).
  destruct userClaim as [info [md ad [si |] pl am]]; reflexivity.
Qed.

(** X13: a success does not mean the claim can be built into a transaction: a
    server that answers 200 with a body that has no claim message gets a
    success whose [claim] makes the builder throw. *)
Theorem success_claim_may_throw
    (airdropId connectedAddress : string) (testnet : option bool)
    (w w' : World) (body : JSON) :
  get_field "claim_message" body = None ->
  (fetchAirdropClaim (answering 200 body) airdropId connectedAddress testnet w).2
  = Resolved (AirdropClaimSuccess body body)
  ∧ ∃ reason, getTxFromUserClaim_js w' body = Throw reason.
Proof.
  intros Hmissing. split.
  - by rewrite fetchAirdropClaim_unfold.
  - apply getTxFromUserClaim_js_throws. by left.
Qed.

Lemma success_claim_may_throw_witness :
  (fetchAirdropClaim (answering 200 (JObject [])) "airdrop-1" "UQAddr" None
     (mkWorld 1700000000000 [])).2
  = Resolved (AirdropClaimSuccess (JObject []) (JObject []))
  ∧ ∃ reason,
      getTxFromUserClaim_js (mkWorld 1700000000999 []) (JObject []) = Throw reason.
Proof.
  apply (success_claim_may_throw "airdrop-1" "UQAddr" None
           (mkWorld 1700000000000 []) (mkWorld 1700000000999 []) (JObject [])).
  reflexivity.
Defined.

(** X14: from the server to the wallet: when the server answers 200 with the
    JSON object of a [UserClaim], the fetch resolves to a success, and
    building a transaction from its [claim] does not throw and gives the
    descriptor of that claim. *)
Theorem fetched_claim_builds
    (airdropId connectedAddress : string) (testnet : option bool)
    (w w' : World) (userClaim : UserClaim) :
  ∃ info claim,
    (fetchAirdropClaim (answering 200 (UserClaim_to_JSON userClaim))
       airdropId connectedAddress testnet w).2
    = Resolved (AirdropClaimSuccess info claim)
    ∧ getTxFromUserClaim_js w' claim
      = Return (Tx_to_js (getTxFromUserClaim w' userClaim)).
Proof.
  exists (UserClaim_to_JSON userClaim), (UserClaim_to_JSON userClaim). split.
  - by rewrite fetchAirdropClaim_unfold.
  - rewrite (getTxFromUserClaim_js_returns w' _ _ (get_field_claim_message userClaim))
      by (unfold InternalMessage_to_JSON; discriminate).
    destruct userClaim as [info [md ad [si |] pl am]]; reflexivity.
Qed.

(** X15: the deadline follows the clock: a later clock never gives an earlier
    [validUntil], and a clock at least a second later gives a later one,
    whatever the claims. *)
Theorem getTxFromUserClaim_deadline_monotone
    (w1 w2 : World) (claim1 claim2 : UserClaim) :
  Date_now w1 <= Date_now w2 ->
  Tx.validUntil (getTxFromUserClaim w1 claim1)
  <= Tx.validUntil (getTxFromUserClaim w2 claim2)
  ∧ (Date_now w1 + 1000 <= Date_now w2 ->
     Tx.validUntil (getTxFromUserClaim w1 claim1)
     < Tx.validUntil (getTxFromUserClaim w2 claim2)).
Proof.
  intros Hle. cbn [getTxFromUserClaim Tx.validUntil].
  pose proof (Z.div_le_mono _ _ 1000 ltac:(lia) Hle).
  split; [lia |]. intros Hsec.
  pose proof (Z.div_le_mono _ _ 1000 ltac:(lia) Hsec) as H1.
  replace (Date_now w1 + 1000) with (Date_now w1 + 1 * 1000) in H1 by lia.
  rewrite Z.div_add in H1 by lia. lia.
Qed.

Lemma getTxFromUserClaim_deadline_monotone_witness :
  Tx.validUntil
    (getTxFromUserClaim (mkWorld 1700000000999 [])
       (mkUserClaim (mkUserClaimInfo "X" "100" "100" "0" None)
          (mkInternalMessage 3 "A" None "P" "100")))
  <= Tx.validUntil
       (getTxFromUserClaim (mkWorld 1700000001000 [])
          (mkUserClaim (mkUserClaimInfo "X" "100" "100" "0" None)
             (mkInternalMessage 3 "A" None "P" "100")))
  ∧ (Date_now (mkWorld 1700000000999 []) + 1000 <= Date_now (mkWorld 1700000001000 []) ->
     Tx.validUntil
       (getTxFromUserClaim (mkWorld 1700000000999 [])
          (mkUserClaim (mkUserClaimInfo "X" "100" "100" "0" None)
             (mkInternalMessage 3 "A" None "P" "100")))
     < Tx.validUntil
         (getTxFromUserClaim (mkWorld 1700000001000 [])
            (mkUserClaim (mkUserClaimInfo "X" "100" "100" "0" None)
               (mkInternalMessage 3 "A" None "P" "100")))).
Proof.
  apply (getTxFromUserClaim_deadline_monotone
           (mkWorld 1700000000999 []) (mkWorld 1700000001000 [])).
  cbn. lia.
Defined.

(** The interface predicates accept the JSON object of every typed claim,
    so a 200 answer carrying one is classified into a value of the union. *)
Lemma UserClaim_to_JSON_is_UserClaim (userClaim : UserClaim) :
  is_UserClaim (UserClaim_to_JSON userClaim) = true
  ∧ is_ClaimResult (handleApiResponse 200 (UserClaim_to_JSON userClaim)) = true.
Proof.
  destruct userClaim as [[j a t c [[] |]] [md ad [si |] pl am]]; split; reflexivity.
Qed.
